(** * BGE-M3 embedding server (tools/embedding_server.py)

    A shallow embedding of the FastAPI service that wraps pymilvus'
    [BGEM3EmbeddingFunction]: the three request handlers ([embed],
    [embed_document], [health_check]) and the two startup handlers
    ([startup_event], [override_model_settings]).

    The process-wide state (the global [bge_m3_ef], [os.environ]) and the
    observable effects (log records, calls into the model library) are threaded
    through a small state-and-exception monad.  The model library itself is a
    black box: a handle is a record of its attributes and of its two encode
    operations. *)

From Stdlib Require Import ZArith Ascii String Floats.SpecFloat.
From stdpp Require Import base option list strings gmap.

Open Scope Z_scope.

(** ** Values exchanged with the model library *)

(** A Python [float] / a numpy floating-point scalar.  The server only moves
    these numbers around, it never computes with them. *)
Definition float : Type := spec_float.

(** A one-dimensional numpy array and its [tolist()]: the elements, in order,
    as a Python list. *)
Definition ndarray (A : Type) : Type := list A.

Definition tolist {A : Type} (a : ndarray A) : list A := a.

(** A scipy CSR structure, as far as the server reads it: the attributes
    [indices], [data] and [shape]. *)
Module csr.
Record t : Type := mk {
  indices : ndarray Z;
  data : ndarray float;
  shape : list Z
}.
End csr.

(** The dict an encode call returns.  [embeddings["dense"]] and
    [embeddings["sparse"]] are subscripted by the handlers; a key the library
    did not fill in is absent ([None]) and subscripting it raises [KeyError]. *)
Module native.
Record t : Type := mk {
  dense : option (list (ndarray float));
  sparse : option (list csr.t)
}.
End native.

(** Exceptions that can be raised inside the handlers' [try] blocks, all of
    them instances of [Exception]:  [Exception msg] stands for whatever the
    library raises, identified by its [str(e)]. *)
Inductive exception : Type :=
  | Exception (message : string)
  | KeyError (key : string).

(** [str(e)]; for a [KeyError] this is the [repr] of the missing key. *)
Definition str (e : exception) : string :=
  match e with
  | Exception message => message
  | KeyError key => "'" +:+ key +:+ "'"
  end.

(** [fastapi.HTTPException(status_code=..., detail=...)]. *)
Record HTTPException : Type := mkHTTPException {
  status_code : Z;
  detail : string
}.

(** The model handle: [BGEM3EmbeddingFunction] seen from the server.
    [inl e] is a call that raises [e]. *)
Module BGEM3EmbeddingFunction.
Record t : Type := mk {
  model_name : string;
  dim : gmap string Z;
  encode_queries : list string → exception + native.t;
  encode_documents : list string → exception + native.t
}.
End BGEM3EmbeddingFunction.

(** ** Request and response models *)

Module EmbeddingRequest.
Record t : Type := mk {
  texts : list string;
  model_name : string
}.

(** [model_name: str = "BAAI/bge-m3"] *)
Definition default_model_name : string := "BAAI/bge-m3".
End EmbeddingRequest.

(** One entry of the ["sparse"] list: the dict literal with the keys
    ["indices"], ["values"] and ["shape"]. *)
Module SparseVector.
Record t : Type := mk {
  indices : list Z;
  values : list float;
  shape : list Z
}.
End SparseVector.

(** The values stored in [EmbeddingResponse.embeddings : Dict[str, Any]]. *)
Inductive batch : Type :=
  | DenseBatch (vectors : list (list float))
  | SparseBatch (vectors : list SparseVector.t).

Module EmbeddingResponse.
Record t : Type := mk {
  embeddings : gmap string batch;
  error : option string
}.
End EmbeddingResponse.

(** The dict returned by a successful health check. *)
Module Health.
Record dimensions : Type := mkDimensions {
  dense : Z;
  sparse : Z
}.

Record t : Type := mk {
  status : string;
  model : string;
  dims : dimensions
}.
End Health.

(** ** Effects *)

Inductive level : Type := INFO | WARNING | ERROR.

(** Log records, one constructor per [logger] call site; the arguments are the
    values interpolated into the message. *)
Inductive message : Type :=
  | LoadingModel (model_name device : string)
  | ModelLoaded
  | LoadFailed (err : string)
  | ModelMismatch (requested loaded : string)
  | GeneratingQuery (n : nat)
  | GeneratedEmbeddings (embeddings : gmap string batch)
  | ErrorGenerating (err : string)
  | GeneratingDocument (n : nat)
  | ErrorGeneratingDocument (err : string)
  | HealthCheckFailed (err : string)
  | UsingLocalPath (path : string)
  | LocalPathNotFound (path : string)
  | DenseDimension (d : Z)
  | SparseDimension (d : Z).

Inductive event : Type :=
  | Log (lvl : level) (msg : message)
  | EncodeQueries (texts : list string)
  | EncodeDocuments (texts : list string)
  | Construct (model_name device : string) (use_fp16 : bool).

(** Process-wide state: the module global [bge_m3_ef], [os.environ], and the
    effects performed so far, oldest first. *)
Record process : Type := mkProcess {
  bge_m3_ef : option BGEM3EmbeddingFunction.t;
  environ : gmap string string;
  trace : list event
}.

(** A computation that may update the process state and either returns a value
    ([inr]) or raises ([inl]). *)
Definition M (E A : Type) : Type := process → process * (E + A).

Definition ret {E A : Type} (a : A) : M E A := λ p, (p, inr a).

Definition raise {E A : Type} (e : E) : M E A := λ p, (p, inl e).

Definition bind {E A B : Type} (m : M E A) (k : A → M E B) : M E B :=
  λ p, match m p with
       | (p', inr a) => k a p'
       | (p', inl e) => (p', inl e)
       end.

(** [try: body except Exception as e: handler(e)].  State changes made by the
    body before it raised are kept. *)
Definition try_except {E E' A : Type} (body : M E A) (handler : E → M E' A)
    : M E' A :=
  λ p, match body p with
       | (p', inr a) => (p', inr a)
       | (p', inl e) => handler e p'
       end.

#[global] Instance M_ret {E : Type} : MRet (M E) := λ A, ret.
#[global] Instance M_bind {E : Type} : MBind (M E) := λ A B k m, bind m k.

Definition emit {E : Type} (ev : event) : M E unit :=
  λ p, (mkProcess (bge_m3_ef p) (environ p) (trace p ++ [ev]), inr ()).

Definition logger {E : Type} (lvl : level) (msg : message) : M E unit :=
  emit (Log lvl msg).

Definition global_bge_m3_ef {E : Type} : M E (option BGEM3EmbeddingFunction.t) :=
  λ p, (p, inr (bge_m3_ef p)).

Definition set_bge_m3_ef {E : Type} (ef : BGEM3EmbeddingFunction.t) : M E unit :=
  λ p, (mkProcess (Some ef) (environ p) (trace p), inr ()).

Definition setenv {E : Type} (key value : string) : M E unit :=
  λ p, (mkProcess (bge_m3_ef p) (<[key := value]> (environ p)) (trace p), inr ()).

Definition os_environ {E : Type} : M E (gmap string string) :=
  λ p, (p, inr (environ p)).

(** The outcome of a library call, returned or raised. *)
Definition outcome {E A : Type} (r : E + A) : M E A := λ p, (p, r).

(** A call into the library: recorded in the trace, then it returns or raises
    as the handle says. *)
Definition call_encode_queries (ef : BGEM3EmbeddingFunction.t)
    (texts : list string) : M exception native.t :=
  _ ← emit (EncodeQueries texts);
  outcome (BGEM3EmbeddingFunction.encode_queries ef texts).

Definition call_encode_documents (ef : BGEM3EmbeddingFunction.t)
    (texts : list string) : M exception native.t :=
  _ ← emit (EncodeDocuments texts);
  outcome (BGEM3EmbeddingFunction.encode_documents ef texts).

(** [d[key]] for a key that may be absent. *)
Definition getitem {A : Type} (d : option A) (key : string) : exception + A :=
  match d with
  | Some v => inr v
  | None => inl (KeyError key)
  end.

(** ** Response serialization *)

Definition serialize_sparse (sparse_emb : csr.t) : SparseVector.t :=
  SparseVector.mk (tolist (csr.indices sparse_emb))
                  (tolist (csr.data sparse_emb))
                  (csr.shape sparse_emb).

(** The dict display building [serializable_embeddings]: the ["dense"] entry
    is evaluated first, then the ["sparse"] entry. *)
Definition serialize (embeddings : native.t) : exception + gmap string batch :=
  match getitem (native.dense embeddings) "dense" with
  | inl e => inl e
  | inr dense =>
      let dense_lists := map tolist dense in
      match getitem (native.sparse embeddings) "sparse" with
      | inl e => inl e
      | inr sparse =>
          let sparse_dicts := map serialize_sparse sparse in
          inr (<["sparse" := SparseBatch sparse_dicts]>
                 (<["dense" := DenseBatch dense_lists]> ∅))
      end
  end.

(** ** Request handlers *)

Definition not_initialized (code : Z) : HTTPException :=
  mkHTTPException code "Embedding model not initialized".

Definition warn_on_mismatch (requested : string)
    (ef : BGEM3EmbeddingFunction.t) : M exception unit :=
  if negb (String.eqb requested (BGEM3EmbeddingFunction.model_name ef))
  then logger WARNING
         (ModelMismatch requested (BGEM3EmbeddingFunction.model_name ef))
  else mret ().

(** [POST /embed] *)
Definition embed (request : EmbeddingRequest.t)
    : M HTTPException EmbeddingResponse.t :=
  handle ← global_bge_m3_ef;
  match handle with
  | None => raise (not_initialized 500)
  | Some ef =>
      try_except
        (_ ← warn_on_mismatch (EmbeddingRequest.model_name request) ef;
         _ ← logger INFO (GeneratingQuery (length (EmbeddingRequest.texts request)));
         embeddings ← call_encode_queries ef (EmbeddingRequest.texts request);
         serializable_embeddings ← outcome (serialize embeddings);
         _ ← logger INFO (GeneratedEmbeddings serializable_embeddings);
         mret (EmbeddingResponse.mk serializable_embeddings None))
        (λ e,
         _ ← logger ERROR (ErrorGenerating (str e));
         mret (EmbeddingResponse.mk ∅
                 (Some ("Failed to generate embeddings: " +:+ str e))))
  end.

(** [POST /embed/document] *)
Definition embed_document (request : EmbeddingRequest.t)
    : M HTTPException EmbeddingResponse.t :=
  handle ← global_bge_m3_ef;
  match handle with
  | None => raise (not_initialized 500)
  | Some ef =>
      try_except
        (_ ← warn_on_mismatch (EmbeddingRequest.model_name request) ef;
         _ ← logger INFO (GeneratingDocument (length (EmbeddingRequest.texts request)));
         embeddings ← call_encode_documents ef (EmbeddingRequest.texts request);
         serializable_embeddings ← outcome (serialize embeddings);
         mret (EmbeddingResponse.mk serializable_embeddings None))
        (λ e,
         _ ← logger ERROR (ErrorGeneratingDocument (str e));
         mret (EmbeddingResponse.mk ∅
                 (Some ("Failed to generate document embeddings: " +:+ str e))))
  end.

Definition test_text : string := "This is a test sentence for health check.".

(** [dim.get(key, 0)] *)
Definition dim_get (ef : BGEM3EmbeddingFunction.t) (key : string) : Z :=
  default 0 (BGEM3EmbeddingFunction.dim ef !! key).

(** [GET /health] *)
Definition health_check : M HTTPException Health.t :=
  handle ← global_bge_m3_ef;
  match handle with
  | None => raise (not_initialized 503)
  | Some ef =>
      try_except
        (_ ← call_encode_queries ef [test_text];
         mret (Health.mk "healthy"
                 (BGEM3EmbeddingFunction.model_name ef)
                 (Health.mkDimensions (dim_get ef "dense") (dim_get ef "sparse"))))
        (λ e,
         _ ← logger ERROR (HealthCheckFailed (str e));
         raise (mkHTTPException 503 ("Model check failed: " +:+ str e)))
  end.

(** ** Startup *)

(** [os.path] as the startup code uses it.  [abspath] depends on the working
    directory and [path_exists] on the disk. *)
Class OsPath : Type := {
  abspath : string → string;
  dirname : string → string;
  path_exists : string → bool
}.

(** The class [BGEM3EmbeddingFunction] itself: constructing a handle reads the
    environment (the cache location) and may raise. *)
Definition constructor : Type :=
  gmap string string → string → string → bool →
  exception + BGEM3EmbeddingFunction.t.

(** The parsed command line. *)
Module Args.
Record t : Type := mk {
  host : string;
  port : Z;
  model : string;
  local_model_path : option string;
  device : string;
  fp16 : bool
}.

(** The [default=] values of the parser. *)
Definition defaults : t := mk "127.0.0.1" 8000 "BAAI/bge-m3" None "cpu" false.
End Args.

(** Truth value of an optional string: [None] and [""] are false. *)
Definition truthy (s : option string) : option string :=
  match s with
  | Some "" => None
  | _ => s
  end.

Section Startup.
Context {os_path : OsPath} (new : constructor).

Definition call_constructor (model_name device : string) (use_fp16 : bool)
    : M exception BGEM3EmbeddingFunction.t :=
  _ ← emit (Construct model_name device use_fp16);
  env ← os_environ;
  outcome (new env model_name device use_fp16).

(** The handler registered at import time. *)
Definition startup_event : M exception unit :=
  try_except
    (let model_name := "BAAI/bge-m3" in
     let device := "cpu" in
     let use_fp16 := false in
     _ ← logger INFO (LoadingModel model_name device);
     ef ← call_constructor model_name device use_fp16;
     _ ← set_bge_m3_ef ef;
     logger INFO ModelLoaded)
    (λ e,
     _ ← logger ERROR (LoadFailed (str e));
     raise e).

(** The handler registered under [if __name__ == "__main__"]. *)
Definition override_model_settings (args : Args.t) : M exception unit :=
  try_except
    (let model_name := Args.model args in
     model_name ←
       match truthy (Args.local_model_path args) with
       | Some path =>
           let local_model_path := abspath path in
           _ ← logger INFO (UsingLocalPath local_model_path);
           _ ← setenv "TRANSFORMERS_CACHE" (dirname local_model_path);
           if path_exists local_model_path
           then mret local_model_path
           else
             _ ← logger WARNING (LocalPathNotFound local_model_path);
             mret model_name
       | None => mret model_name
       end;
     _ ← logger INFO (LoadingModel model_name (Args.device args));
     ef ← call_constructor model_name (Args.device args) (Args.fp16 args);
     _ ← set_bge_m3_ef ef;
     _ ← logger INFO ModelLoaded;
     dense ← outcome (getitem (BGEM3EmbeddingFunction.dim ef !! "dense") "dense");
     _ ← logger INFO (DenseDimension dense);
     sparse ← outcome (getitem (BGEM3EmbeddingFunction.dim ef !! "sparse") "sparse");
     logger INFO (SparseDimension sparse))
    (λ e,
     _ ← logger ERROR (LoadFailed (str e));
     raise e).

(** How the file is run: imported by an ASGI server, or executed as a
    script, which registers the second startup handler before serving. *)
Inductive launch : Type :=
  | Imported
  | Script (args : Args.t).

Definition on_startup (l : launch) : list (M exception unit) :=
  match l with
  | Imported => [startup_event]
  | Script args => [startup_event; override_model_settings args]
  end.

(** The framework runs the registered handlers in registration order; the
    first one that raises aborts the startup. *)
Fixpoint run_handlers (handlers : list (M exception unit)) : M exception unit :=
  match handlers with
  | [] => mret ()
  | handler :: rest => _ ← handler; run_handlers rest
  end.

Definition startup (l : launch) : M exception unit :=
  run_handlers (on_startup l).
End Startup.

(** The state in which the module body leaves the process:
    [bge_m3_ef = None], nothing done yet. *)
Definition initial (env : gmap string string) : process :=
  mkProcess None env [].

(** ** Serving *)

Inductive request : Type :=
  | PostEmbed (body : EmbeddingRequest.t)
  | PostEmbedDocument (body : EmbeddingRequest.t)
  | GetHealth.

(** The process state after a request has been handled. *)
Definition handle_request (r : request) (p : process) : process :=
  match r with
  | PostEmbed body => fst (embed body p)
  | PostEmbedDocument body => fst (embed_document body p)
  | GetHealth => fst (health_check p)
  end.

Definition serve (requests : list request) (p : process) : process :=
  foldl (λ p r, handle_request r p) p requests.

(** ** Observations on traces *)

Definition is_encode (ev : event) : bool :=
  match ev with
  | EncodeQueries _ | EncodeDocuments _ => true
  | _ => false
  end.

Definition is_construct (ev : event) : bool :=
  match ev with
  | Construct _ _ _ => true
  | _ => false
  end.

(** The calls made into the library, oldest first. *)
Definition encode_calls (tr : list event) : list event :=
  List.filter is_encode tr.

Definition constructions (tr : list event) : list event :=
  List.filter is_construct tr.

(** The two embedding routes and what distinguishes them. *)
Inductive mode : Type := Query | Document.

Definition post (m : mode) : EmbeddingRequest.t → M HTTPException EmbeddingResponse.t :=
  match m with
  | Query => embed
  | Document => embed_document
  end.

Definition encode (m : mode) (ef : BGEM3EmbeddingFunction.t)
    : list string → exception + native.t :=
  match m with
  | Query => BGEM3EmbeddingFunction.encode_queries ef
  | Document => BGEM3EmbeddingFunction.encode_documents ef
  end.

Definition encode_event (m : mode) (texts : list string) : event :=
  match m with
  | Query => EncodeQueries texts
  | Document => EncodeDocuments texts
  end.

Definition failure_prefix (m : mode) : string :=
  match m with
  | Query => "Failed to generate embeddings: "
  | Document => "Failed to generate document embeddings: "
  end.

(** What can go wrong inside the [try] block of an embedding route: the encode
    call raises, or it returns and the conversion raises. *)
Definition raises (m : mode) (ef : BGEM3EmbeddingFunction.t)
    (texts : list string) (e : exception) : Prop :=
  encode m ef texts = inl e ∨
  ∃ embeddings, encode m ef texts = inr embeddings ∧ serialize embeddings = inl e.

(** ** [posixpath] *)

Module posixpath.
Definition sep : ascii := "/"%char.

Definition is_sep (c : ascii) : bool := Ascii.eqb c sep.

Definition nonempty (s : string) : bool :=
  match s with
  | EmptyString => false
  | String _ _ => true
  end.

(** [p[:p.rfind("/") + 1]] *)
Fixpoint head (p : string) : string :=
  match p with
  | EmptyString => EmptyString
  | String c rest =>
      let h := head rest in
      if nonempty h then String c h
      else if is_sep c then String c EmptyString
      else EmptyString
  end.

(** [s.rstrip("/")] *)
Fixpoint rstrip (s : string) : string :=
  match s with
  | EmptyString => EmptyString
  | String c rest =>
      let r := rstrip rest in
      if negb (nonempty r) && is_sep c then EmptyString else String c r
  end.

Definition dirname (p : string) : string :=
  let h := head p in
  (* [head and head != sep*len(head)]: a string of slashes strips to "" *)
  if nonempty h && nonempty (rstrip h) then rstrip h else h.

Definition isabs (p : string) : bool :=
  match p with
  | String c _ => is_sep c
  | EmptyString => false
  end.

Fixpoint endswith_sep (p : string) : bool :=
  match p with
  | EmptyString => false
  | String c EmptyString => is_sep c
  | String _ rest => endswith_sep rest
  end.

(** [join(a, b)] *)
Definition join (a b : string) : string :=
  if isabs b then b
  else if negb (nonempty a) || endswith_sep a then a +:+ b
  else a +:+ String sep b.

(** [p.split("/")] *)
Fixpoint split (p : string) : list string :=
  match p with
  | EmptyString => [EmptyString]
  | String c rest =>
      let parts := split rest in
      if is_sep c then EmptyString :: parts
      else match parts with
           | part :: others => String c part :: others
           | [] => [String c EmptyString]
           end
  end.

(** Number of leading slashes kept by [normpath]: two stay two, three or
    more collapse to one. *)
Definition initial_slashes (p : string) : nat :=
  match p with
  | String c1 (String c2 (String c3 _)) =>
      if is_sep c1 then (if is_sep c2 && negb (is_sep c3) then 2 else 1) else 0
  | String c1 (String c2 EmptyString) =>
      if is_sep c1 then (if is_sep c2 then 2 else 1) else 0
  | String c1 EmptyString => if is_sep c1 then 1 else 0
  | EmptyString => 0
  end%nat.

Definition push (slashes : nat) (new_comps : list string) (comp : string)
    : list string :=
  if String.eqb comp "" || String.eqb comp "." then new_comps
  else if negb (String.eqb comp "..")
          || (Nat.eqb slashes 0 && bool_decide (new_comps = []))
          || bool_decide (last new_comps = Some "..")
       then new_comps ++ [comp]
       else removelast new_comps.

Fixpoint sep_join (comps : list string) : string :=
  match comps with
  | [] => ""
  | [comp] => comp
  | comp :: rest => comp +:+ String sep (sep_join rest)
  end.

Fixpoint slashes (n : nat) : string :=
  match n with
  | O => ""
  | S n => String sep (slashes n)
  end.

Definition normpath (p : string) : string :=
  if negb (nonempty p) then "."
  else
    let n := initial_slashes p in
    let comps := foldl (push n) [] (split p) in
    let path := slashes n +:+ sep_join comps in
    if nonempty path then path else ".".

(** [abspath] in a process whose working directory is [cwd]. *)
Definition abspath (cwd p : string) : string :=
  normpath (if isabs p then p else join cwd p).
End posixpath.

(** A POSIX process with working directory [cwd] on a disk where exactly the
    paths in [present] exist. *)
Definition posix (cwd : string) (present : list string) : OsPath := {|
  abspath := posixpath.abspath cwd;
  dirname := posixpath.dirname;
  path_exists := λ p, bool_decide (p ∈ present)
|}.

(** ** Sample collaborators

    Small model handles used to run the handlers on concrete inputs. *)

Definition half : float := S754_finite false 1 (-1).
Definition one : float := S754_finite false 1 0.

(** Two-dimensional dense vectors over a vocabulary of 250002 tokens; the
    query and document encoders differ in the first coordinate. *)
Definition toy_csr (text : string) : csr.t :=
  csr.mk [Z.of_nat (String.length text)] [half] [1; 250002].

Definition toy_encode (first : float) (texts : list string) : exception + native.t :=
  inr (native.mk (Some (map (λ _, [first; half]) texts))
                 (Some (map toy_csr texts))).

Definition toy_dim : gmap string Z :=
  <["sparse" := 250002]> (<["dense" := 2]> ∅).

Definition toy (model_name : string) : BGEM3EmbeddingFunction.t :=
  BGEM3EmbeddingFunction.mk model_name toy_dim (toy_encode one) (toy_encode half).

(** A handle whose encode calls raise. *)
Definition out_of_memory (model_name : string) : BGEM3EmbeddingFunction.t :=
  BGEM3EmbeddingFunction.mk model_name toy_dim
    (λ _, inl (Exception "CUDA out of memory"))
    (λ _, inl (Exception "CUDA out of memory")).

(** A handle configured to return dense vectors only. *)
Definition dense_only (model_name : string) : BGEM3EmbeddingFunction.t :=
  BGEM3EmbeddingFunction.mk model_name toy_dim
    (λ texts, inr (native.mk (Some (map (λ _, [one; half]) texts)) None))
    (λ texts, inr (native.mk (Some (map (λ _, [half; half]) texts)) None)).

(** A handle that reports no dimensions. *)
Definition dimensionless (model_name : string) : BGEM3EmbeddingFunction.t :=
  BGEM3EmbeddingFunction.mk model_name ∅ (toy_encode one) (toy_encode half).

(** A library whose constructor always succeeds. *)
Definition toy_new : constructor :=
  λ _ model_name _ _, inr (toy model_name).

Definition ready (ef : BGEM3EmbeddingFunction.t) : process :=
  mkProcess (Some ef) ∅ [].

Definition hello : EmbeddingRequest.t :=
  EmbeddingRequest.mk ["hello world"] EmbeddingRequest.default_model_name.

(** ** The embedding routes in closed form *)

Definition add_events (evs : list event) (p : process) : process :=
  mkProcess (bge_m3_ef p) (environ p) (trace p ++ evs).

Definition mismatch_warning (requested : string)
    (ef : BGEM3EmbeddingFunction.t) : list event :=
  if negb (String.eqb requested (BGEM3EmbeddingFunction.model_name ef))
  then [Log WARNING (ModelMismatch requested (BGEM3EmbeddingFunction.model_name ef))]
  else [].

Definition generating (m : mode) (n : nat) : message :=
  match m with
  | Query => GeneratingQuery n
  | Document => GeneratingDocument n
  end.

(** Encode, then convert. *)
Definition converted (m : mode) (ef : BGEM3EmbeddingFunction.t)
    (texts : list string) : exception + gmap string batch :=
  match encode m ef texts with
  | inl e => inl e
  | inr embeddings => serialize embeddings
  end.

Definition epilogue (m : mode) (r : exception + gmap string batch) : list event :=
  match r, m with
  | inr embeddings, Query => [Log INFO (GeneratedEmbeddings embeddings)]
  | inr _, Document => []
  | inl e, Query => [Log ERROR (ErrorGenerating (str e))]
  | inl e, Document => [Log ERROR (ErrorGeneratingDocument (str e))]
  end.

Definition reply (m : mode) (r : exception + gmap string batch) : EmbeddingResponse.t :=
  match r with
  | inr embeddings => EmbeddingResponse.mk embeddings None
  | inl e => EmbeddingResponse.mk ∅ (Some (failure_prefix m +:+ str e))
  end.

(** Well-formedness of a CSR structure as scipy maintains it: parallel
    [indices] and [data], column indices below the number of columns, which is
    the last entry of [shape]. *)
Definition shape_bound (shape : list Z) : Z := default 0 (last shape).

Definition csr_wf (s : csr.t) : Prop :=
  length (csr.indices s) = length (csr.data s) ∧
  Forall (λ i, 0 ≤ i < shape_bound (csr.shape s)) (csr.indices s).

Definition sparse_vector_wf (v : SparseVector.t) : Prop :=
  length (SparseVector.indices v) = length (SparseVector.values v) ∧
  Forall (λ i, 0 ≤ i < shape_bound (SparseVector.shape v)) (SparseVector.indices v).

(** A response either carries embeddings under both keys and no error, or an
    error message and no embeddings. *)
Definition populated (response : EmbeddingResponse.t) : Prop :=
  EmbeddingResponse.error response = None ∧
  is_Some (EmbeddingResponse.embeddings response !! "dense") ∧
  is_Some (EmbeddingResponse.embeddings response !! "sparse") ∧
  EmbeddingResponse.embeddings response ≠ ∅.

Definition failed (response : EmbeddingResponse.t) : Prop :=
  ∃ msg, EmbeddingResponse.error response = Some msg ∧ msg ≠ "" ∧
         EmbeddingResponse.embeddings response = ∅.

(** Command lines used in the examples: a local model directory, and a model
    name other than the default. *)
Definition local_args : Args.t :=
  Args.mk "127.0.0.1" 8000 "BAAI/bge-m3" (Some "/models/bge-m3") "cpu" false.

Definition custom_args : Args.t :=
  Args.mk "127.0.0.1" 8000 "BAAI/bge-m3-unsupervised" None "cpu" false.

(** A disk without the model directory, and one with it. *)
Definition bare_disk : OsPath := posix "/srv/app" [].
Definition stocked_disk : OsPath := posix "/srv/app" ["/models"; "/models/bge-m3"].

(** "The cache location is redirected to the parent directory of the local
    path exactly when a local path is given and exists", for one run of
    [override_model_settings]. *)
Definition cache_redirected_iff_path_exists {os_path : OsPath}
    (new : constructor) (args : Args.t) (p : process) : Prop :=
  let p' := fst (override_model_settings new args p) in
  (∃ path, truthy (Args.local_model_path args) = Some path ∧
           environ p' !! "TRANSFORMERS_CACHE" = Some (dirname (abspath path))) ↔
  (∃ path, truthy (Args.local_model_path args) = Some path ∧
           path_exists (abspath path) = true).

(** "The handle is constructed at most once", for the state a startup leaves. *)
Definition constructed_at_most_once (p : process) : Prop :=
  (length (constructions (trace p)) ≤ 1)%nat.

(** ** Further observations and sample collaborators *)

(** The environment and the model identifier that [override_model_settings]
    hands to the constructor. *)
Definition resolved_environ {os_path : OsPath} (args : Args.t)
    (env : gmap string string) : gmap string string :=
  match truthy (Args.local_model_path args) with
  | Some path => <["TRANSFORMERS_CACHE" := dirname (abspath path)]> env
  | None => env
  end.

Definition resolved_model_name {os_path : OsPath} (args : Args.t) : string :=
  match truthy (Args.local_model_path args) with
  | Some path =>
      if path_exists (abspath path) then abspath path else Args.model args
  | None => Args.model args
  end.

(** Log records of one level, oldest first. *)
Definition is_record (lvl : level) (ev : event) : bool :=
  match ev, lvl with
  | Log INFO _, INFO | Log WARNING _, WARNING | Log ERROR _, ERROR => true
  | _, _ => false
  end.

Definition records (lvl : level) (tr : list event) : list event :=
  List.filter (is_record lvl) tr.

(** A library whose constructor always raises. *)
Definition failing_new : constructor :=
  λ _ _ _ _, inl (Exception "model files not found").

(** A library that can only load from the cache directory [/models]. *)
Definition offline_new : constructor :=
  λ env model_name _ _,
    if bool_decide (env !! "TRANSFORMERS_CACHE" = Some "/models")
    then inr (toy model_name)
    else inl (Exception "cannot reach the model hub").

(** A library whose handles report no dimensions. *)
Definition dimensionless_new : constructor :=
  λ _ model_name _ _, inr (dimensionless model_name).

(** ** Proofs *)

Ltac run :=
  unfold post, embed, embed_document, health_check, warn_on_mismatch,
    call_encode_queries, call_encode_documents, logger, emit,
    global_bge_m3_ef, os_environ, set_bge_m3_ef, setenv, outcome,
    try_except, raise, mbind, M_bind, mret, M_ret, bind, ret in *;
  cbn [fst snd bge_m3_ef environ trace] in *.

(** [posixpath] on a few paths. *)

Example dirname_nested : posixpath.dirname "/models/bge-m3" = "/models".
Proof. reflexivity. Qed.

Example dirname_root : posixpath.dirname "/bge-m3" = "/".
Proof. reflexivity. Qed.

Example dirname_bare : posixpath.dirname "bge-m3" = "".
Proof. reflexivity. Qed.

Example dirname_trailing : posixpath.dirname "/a//b/" = "/a//b".
Proof. reflexivity. Qed.

Example abspath_relative : posixpath.abspath "/srv/app" "../models/./bge-m3/" = "/srv/models/bge-m3".
Proof. vm_compute. reflexivity. Qed.

Example abspath_absolute : posixpath.abspath "/srv/app" "/models//bge-m3" = "/models/bge-m3".
Proof. vm_compute. reflexivity. Qed.

Example abspath_double_slash : posixpath.abspath "/srv" "//x/../.." = "//".
Proof. vm_compute. reflexivity. Qed.

Lemma add_events_nil p : add_events [] p = p.
Proof. destruct p. unfold add_events. simpl. by rewrite app_nil_r. Qed.

Lemma raises_converted m ef texts e :
  raises m ef texts e ↔ converted m ef texts = inl e.
Proof.
  unfold raises, converted. destruct (encode m ef texts) as [e'|out].
  - split; [intros [H|(? & H & _)]; congruence | intros H; left; congruence].
  - split; [intros [H|(out' & H & Hs)]; [discriminate | congruence]
           | intros H; right; eauto].
Qed.

(** With the handle unset, each route raises before doing anything. *)
Lemma post_unset m request p :
  bge_m3_ef p = None → post m request p = (p, inl (not_initialized 500)).
Proof. intros H. destruct m; run; by rewrite H. Qed.

(** With the handle set, a route logs, calls the encoder once, and answers
    with the converted result or with the failure message. *)
Lemma post_set m request p ef :
  bge_m3_ef p = Some ef →
  let texts := EmbeddingRequest.texts request in
  let r := converted m ef texts in
  post m request p =
    (add_events
       (mismatch_warning (EmbeddingRequest.model_name request) ef
          ++ [Log INFO (generating m (length texts)); encode_event m texts]
          ++ epilogue m r) p,
     inr (reply m r)).
Proof.
  intros H. unfold converted, mismatch_warning, add_events.
  destruct m; run; rewrite H; cbn [encode generating encode_event];
    destruct (negb _); run;
    (match goal with |- context [BGEM3EmbeddingFunction.encode_queries ?h ?t] =>
       destruct (BGEM3EmbeddingFunction.encode_queries h t) as [e|out]
     | |- context [BGEM3EmbeddingFunction.encode_documents ?h ?t] =>
       destruct (BGEM3EmbeddingFunction.encode_documents h t) as [e|out] end);
    try destruct (serialize out) as [e|emb];
    cbn [epilogue reply fst snd bge_m3_ef environ trace];
    rewrite ?H, <- ?app_assoc; reflexivity.
Qed.

Lemma encode_calls_post m texts n r :
  encode_calls ([Log INFO (generating m n); encode_event m texts] ++ epilogue m r)
  = [encode_event m texts].
Proof. by destruct m, r. Qed.

Lemma failure_message_nonempty m e : failure_prefix m +:+ str e ≠ "".
Proof. by destruct m. Qed.

Lemma converted_populated m ef texts embeddings :
  converted m ef texts = inr embeddings →
  is_Some (embeddings !! "dense") ∧ is_Some (embeddings !! "sparse") ∧ embeddings ≠ ∅.
Proof.
  unfold converted, serialize, getitem.
  destruct (encode m ef texts) as [e|[[ds|] [ss|]]]; try discriminate.
  cbn. intros [= <-]. split_and!.
  - rewrite lookup_insert_ne by done. rewrite lookup_insert_eq. eauto.
  - rewrite lookup_insert_eq. eauto.
  - apply insert_non_empty.
Qed.

(** C1: on each embedding route, when the encode call returns one dense
    array and one sparse structure per input text, the response carries no
    error and its ["dense"] and ["sparse"] lists have one entry per text, the
    i-th entry being the conversion of the i-th array (structure) returned for
    the texts; for an empty list of texts both lists are empty. *)
Theorem one_vector_per_text (m : mode) (request : EmbeddingRequest.t)
    (p : process) (ef : BGEM3EmbeddingFunction.t)
    (ds : list (ndarray float)) (ss : list csr.t) :
  bge_m3_ef p = Some ef →
  encode m ef (EmbeddingRequest.texts request) = inr (native.mk (Some ds) (Some ss)) →
  length ds = length (EmbeddingRequest.texts request) →
  length ss = length (EmbeddingRequest.texts request) →
  ∃ dense sparse embeddings,
    snd (post m request p) = inr (EmbeddingResponse.mk embeddings None) ∧
    embeddings !! "dense" = Some (DenseBatch dense) ∧
    embeddings !! "sparse" = Some (SparseBatch sparse) ∧
    length dense = length (EmbeddingRequest.texts request) ∧
    length sparse = length (EmbeddingRequest.texts request) ∧
    (∀ i : nat, dense !! i = tolist <$> ds !! i) ∧
    (∀ i : nat, sparse !! i = serialize_sparse <$> ss !! i) ∧
    (EmbeddingRequest.texts request = [] → dense = [] ∧ sparse = []).
Proof.
  intros Hef Henc Hds Hss.
  exists (map tolist ds), (map serialize_sparse ss).
  eexists. rewrite (post_set m request p ef Hef). cbn [snd].
  unfold converted. rewrite Henc. cbn [serialize getitem native.dense native.sparse reply].
  split_and!.
  - reflexivity.
  - rewrite lookup_insert_ne by done. by rewrite lookup_insert_eq.
  - by rewrite lookup_insert_eq.
  - by rewrite length_map.
  - by rewrite length_map.
  - intros i. apply list_lookup_fmap.
  - intros i. apply list_lookup_fmap.
  - intros Hnil. rewrite Hnil in Hds, Hss.
    destruct ds; [|discriminate]. destruct ss; [|discriminate]. done.
Qed.

Lemma one_vector_per_text_witness :
  ∃ dense sparse embeddings,
    snd (post Query hello (ready (toy "BAAI/bge-m3")))
      = inr (EmbeddingResponse.mk embeddings None) ∧
    embeddings !! "dense" = Some (DenseBatch dense) ∧
    embeddings !! "sparse" = Some (SparseBatch sparse) ∧
    length dense = length (EmbeddingRequest.texts hello) ∧
    length sparse = length (EmbeddingRequest.texts hello) ∧
    (∀ i : nat, dense !! i = tolist <$> [[one; half]] !! i) ∧
    (∀ i : nat, sparse !! i = serialize_sparse <$> [toy_csr "hello world"] !! i) ∧
    (EmbeddingRequest.texts hello = [] → dense = [] ∧ sparse = []).
Proof.
  apply (one_vector_per_text Query hello (ready (toy "BAAI/bge-m3"))
           (toy "BAAI/bge-m3") [[one; half]] [toy_csr "hello world"]);
    reflexivity.
Defined.

(** C2: every response returned by an embedding route either has no error
    and embeddings under both keys, or has a non-empty error message and empty
    embeddings; and when the handle is set and the encode call or the
    conversion raises [e], the route still returns (HTTP 200) the response
    with empty embeddings whose error is the route's prefix followed by
    [str(e)]. *)
Theorem error_or_embeddings (m : mode) (request : EmbeddingRequest.t) (p : process) :
  (∀ response, snd (post m request p) = inr response →
     populated response ∨ failed response) ∧
  (∀ ef e, bge_m3_ef p = Some ef →
     raises m ef (EmbeddingRequest.texts request) e →
     snd (post m request p)
       = inr (EmbeddingResponse.mk ∅ (Some (failure_prefix m +:+ str e)))).
Proof.
  split.
  - intros response. destruct (bge_m3_ef p) as [ef|] eqn:Hef.
    + rewrite (post_set m request p ef Hef). cbn [snd]. intros [= <-].
      destruct (converted m ef (EmbeddingRequest.texts request))
        as [e|embeddings] eqn:Hc; cbn [reply].
      * right. exists (failure_prefix m +:+ str e).
        split_and!; [done | apply failure_message_nonempty | done].
      * left. unfold populated. cbn. split; [done|].
        eapply converted_populated, Hc.
    + by rewrite (post_unset m request p Hef).
  - intros ef e Hef Hraise. apply raises_converted in Hraise.
    rewrite (post_set m request p ef Hef). cbn [snd]. by rewrite Hraise.
Qed.

Lemma error_or_embeddings_witness :
  snd (post Query hello (ready (out_of_memory "BAAI/bge-m3")))
  = inr (EmbeddingResponse.mk ∅
           (Some "Failed to generate embeddings: CUDA out of memory")).
Proof.
  apply (proj2 (error_or_embeddings Query hello (ready (out_of_memory "BAAI/bge-m3")))
           (out_of_memory "BAAI/bge-m3") (Exception "CUDA out of memory"));
    [reflexivity | left; reflexivity].
Defined.

(** A failing conversion is answered the same way: a handle that returns no
    ["sparse"] entry makes the dict display raise [KeyError('sparse')]. *)
Example missing_sparse_key :
  snd (embed_document hello (ready (dense_only "BAAI/bge-m3")))
  = inr (EmbeddingResponse.mk ∅
           (Some "Failed to generate document embeddings: 'sparse'")).
Proof. reflexivity. Qed.

(** C3: with the handle unset, [embed] and [embed_document] raise
    HTTPException 500 and [health_check] raises HTTPException 503, each with
    the detail "Embedding model not initialized", and the process state
    (hence the trace of encode calls) is left as it was. *)
Theorem unset_handle_fails_fast (request : EmbeddingRequest.t) (p : process) :
  bge_m3_ef p = None →
  embed request p
    = (p, inl (mkHTTPException 500 "Embedding model not initialized")) ∧
  embed_document request p
    = (p, inl (mkHTTPException 500 "Embedding model not initialized")) ∧
  health_check p
    = (p, inl (mkHTTPException 503 "Embedding model not initialized")).
Proof.
  intros H. split_and!.
  - apply (post_unset Query request p H).
  - apply (post_unset Document request p H).
  - run. by rewrite H.
Qed.

Lemma unset_handle_fails_fast_witness :
  embed hello (initial ∅)
    = (initial ∅, inl (mkHTTPException 500 "Embedding model not initialized")) ∧
  embed_document hello (initial ∅)
    = (initial ∅, inl (mkHTTPException 500 "Embedding model not initialized")) ∧
  health_check (initial ∅)
    = (initial ∅, inl (mkHTTPException 503 "Embedding model not initialized")).
Proof. apply (unset_handle_fails_fast hello (initial ∅)). reflexivity. Defined.

(** C4: on each embedding route, the i-th entry of the response's
    ["sparse"] list has as indices, values and shape the [indices], [data] and
    [shape] of the i-th structure returned by the library, element for
    element; so a structure with parallel arrays and indices in
    [0, shape_bound) is serialized to a vector with the same properties. *)
Theorem sparse_vectors_copied (m : mode) (request : EmbeddingRequest.t)
    (p : process) (ef : BGEM3EmbeddingFunction.t)
    (ds : list (ndarray float)) (ss : list csr.t) :
  bge_m3_ef p = Some ef →
  encode m ef (EmbeddingRequest.texts request) = inr (native.mk (Some ds) (Some ss)) →
  ∃ embeddings vectors,
    snd (post m request p) = inr (EmbeddingResponse.mk embeddings None) ∧
    embeddings !! "sparse" = Some (SparseBatch vectors) ∧
    length vectors = length ss ∧
    ∀ (i : nat) (s : csr.t), ss !! i = Some s →
      ∃ v, vectors !! i = Some v ∧
           SparseVector.indices v = csr.indices s ∧
           SparseVector.values v = csr.data s ∧
           SparseVector.shape v = csr.shape s ∧
           (csr_wf s → sparse_vector_wf v).
Proof.
  intros Hef Henc. eexists. exists (map serialize_sparse ss).
  rewrite (post_set m request p ef Hef). cbn [snd].
  unfold converted. rewrite Henc.
  cbn [serialize getitem native.dense native.sparse reply].
  split_and!.
  - reflexivity.
  - by rewrite lookup_insert_eq.
  - by rewrite length_map.
  - intros i s Hs. exists (serialize_sparse s). split_and!; try done.
    rewrite list_lookup_fmap. by rewrite Hs.
Qed.

Lemma sparse_vectors_copied_witness :
  ∃ embeddings vectors,
    snd (post Document hello (ready (toy "BAAI/bge-m3")))
      = inr (EmbeddingResponse.mk embeddings None) ∧
    embeddings !! "sparse" = Some (SparseBatch vectors) ∧
    length vectors = length [toy_csr "hello world"] ∧
    ∀ (i : nat) (s : csr.t), [toy_csr "hello world"] !! i = Some s →
      ∃ v, vectors !! i = Some v ∧
           SparseVector.indices v = csr.indices s ∧
           SparseVector.values v = csr.data s ∧
           SparseVector.shape v = csr.shape s ∧
           (csr_wf s → sparse_vector_wf v).
Proof.
  apply (sparse_vectors_copied Document hello (ready (toy "BAAI/bge-m3"))
           (toy "BAAI/bge-m3") [[half; half]] [toy_csr "hello world"]);
    reflexivity.
Defined.

(** The sample structure is well formed, and so is its serialization. *)
Example toy_csr_wf : csr_wf (toy_csr "hello world").
Proof. split; [done|]. repeat constructor; done. Qed.

Example toy_sparse_vector :
  serialize_sparse (toy_csr "hello world") = SparseVector.mk [11] [half] [1; 250002].
Proof. reflexivity. Qed.

(** C7: a request whose [model_name] differs from the loaded model's gets
    the very same result as the request with the same texts and the matching
    name, and that result is a returned response, not a raised error; the
    only difference is one warning in the log, after which both runs log the
    same records and make the same single encode call on the loaded handle. *)
Theorem mismatch_only_warns (m : mode) (p : process)
    (ef : BGEM3EmbeddingFunction.t) (r1 r2 : EmbeddingRequest.t) :
  bge_m3_ef p = Some ef →
  EmbeddingRequest.texts r1 = EmbeddingRequest.texts r2 →
  EmbeddingRequest.model_name r1 ≠ BGEM3EmbeddingFunction.model_name ef →
  EmbeddingRequest.model_name r2 = BGEM3EmbeddingFunction.model_name ef →
  snd (post m r1 p) = snd (post m r2 p) ∧
  (∃ response, snd (post m r1 p) = inr response) ∧
  ∃ rest,
    trace (fst (post m r1 p))
      = trace p ++
        Log WARNING (ModelMismatch (EmbeddingRequest.model_name r1)
                       (BGEM3EmbeddingFunction.model_name ef)) :: rest ∧
    trace (fst (post m r2 p)) = trace p ++ rest ∧
    encode_calls rest = [encode_event m (EmbeddingRequest.texts r1)].
Proof.
  intros Hef Htexts Hne Heq.
  rewrite (post_set m r1 p ef Hef), (post_set m r2 p ef Hef).
  cbn [fst snd add_events trace]. rewrite <- Htexts.
  unfold mismatch_warning.
  apply String.eqb_neq in Hne. apply String.eqb_eq in Heq.
  rewrite Hne, Heq. cbn [negb]. split_and!.
  - reflexivity.
  - eauto.
  - eexists. split_and!; [reflexivity | reflexivity | apply encode_calls_post].
Qed.

Lemma mismatch_only_warns_witness :
  snd (post Query (EmbeddingRequest.mk ["hello world"] "other-model")
         (ready (toy "BAAI/bge-m3")))
    = snd (post Query hello (ready (toy "BAAI/bge-m3"))) ∧
  (∃ response,
     snd (post Query (EmbeddingRequest.mk ["hello world"] "other-model")
            (ready (toy "BAAI/bge-m3"))) = inr response) ∧
  ∃ rest,
    trace (fst (post Query (EmbeddingRequest.mk ["hello world"] "other-model")
                  (ready (toy "BAAI/bge-m3"))))
      = [] ++ Log WARNING (ModelMismatch "other-model" "BAAI/bge-m3") :: rest ∧
    trace (fst (post Query hello (ready (toy "BAAI/bge-m3")))) = [] ++ rest ∧
    encode_calls rest = [EncodeQueries ["hello world"]].
Proof.
  apply (mismatch_only_warns Query (ready (toy "BAAI/bge-m3")) (toy "BAAI/bge-m3")
           (EmbeddingRequest.mk ["hello world"] "other-model") hello);
    [reflexivity | reflexivity | discriminate | reflexivity].
Defined.

(** [health_check] with the handle set. *)
Lemma health_set p ef :
  bge_m3_ef p = Some ef →
  health_check p =
    match BGEM3EmbeddingFunction.encode_queries ef [test_text] with
    | inr _ =>
        (add_events [EncodeQueries [test_text]] p,
         inr (Health.mk "healthy" (BGEM3EmbeddingFunction.model_name ef)
                (Health.mkDimensions (dim_get ef "dense") (dim_get ef "sparse"))))
    | inl e =>
        (add_events [EncodeQueries [test_text]; Log ERROR (HealthCheckFailed (str e))] p,
         inl (mkHTTPException 503 ("Model check failed: " +:+ str e)))
    end.
Proof.
  intros H. unfold add_events. run. rewrite H. run.
  destruct (BGEM3EmbeddingFunction.encode_queries ef [test_text]) as [e|out];
    cbn [fst snd bge_m3_ef environ trace]; rewrite ?H, <- ?app_assoc; reflexivity.
Qed.

(** C8: with the handle set, [health_check] adds exactly one encode call to
    the trace, a query-mode call on the fixed probe sentence; if the call
    returns, the answer is status "healthy" with the handle's model name and
    its [dim] entries for "dense" and "sparse"; if the call raises [e], the
    answer is HTTPException 503 with detail "Model check failed: " followed by
    [str(e)]. *)
Theorem health_probe (p : process) (ef : BGEM3EmbeddingFunction.t) :
  bge_m3_ef p = Some ef →
  encode_calls (trace (fst (health_check p)))
    = encode_calls (trace p) ++ [EncodeQueries [test_text]] ∧
  (∀ embeddings,
     BGEM3EmbeddingFunction.encode_queries ef [test_text] = inr embeddings →
     ∃ dense sparse,
       snd (health_check p)
         = inr (Health.mk "healthy" (BGEM3EmbeddingFunction.model_name ef)
                  (Health.mkDimensions dense sparse)) ∧
       (∀ d, BGEM3EmbeddingFunction.dim ef !! "dense" = Some d → dense = d) ∧
       (∀ d, BGEM3EmbeddingFunction.dim ef !! "sparse" = Some d → sparse = d)) ∧
  (∀ e,
     BGEM3EmbeddingFunction.encode_queries ef [test_text] = inl e →
     snd (health_check p)
       = inl (mkHTTPException 503 ("Model check failed: " +:+ str e))).
Proof.
  intros Hef. rewrite (health_set p ef Hef). split_and!.
  - destruct (BGEM3EmbeddingFunction.encode_queries ef [test_text]);
      cbn [fst add_events trace]; unfold encode_calls;
      rewrite List.filter_app; reflexivity.
  - intros embeddings ->. exists (dim_get ef "dense"), (dim_get ef "sparse").
    unfold dim_get. split_and!; [done | by intros d -> | by intros d ->].
  - by intros e ->.
Qed.

Lemma health_probe_witness :
  encode_calls (trace (fst (health_check (ready (toy "BAAI/bge-m3")))))
    = encode_calls (trace (ready (toy "BAAI/bge-m3"))) ++ [EncodeQueries [test_text]] ∧
  (∀ embeddings,
     BGEM3EmbeddingFunction.encode_queries (toy "BAAI/bge-m3") [test_text]
       = inr embeddings →
     ∃ dense sparse,
       snd (health_check (ready (toy "BAAI/bge-m3")))
         = inr (Health.mk "healthy"
                  (BGEM3EmbeddingFunction.model_name (toy "BAAI/bge-m3"))
                  (Health.mkDimensions dense sparse)) ∧
       (∀ d, BGEM3EmbeddingFunction.dim (toy "BAAI/bge-m3") !! "dense" = Some d →
             dense = d) ∧
       (∀ d, BGEM3EmbeddingFunction.dim (toy "BAAI/bge-m3") !! "sparse" = Some d →
             sparse = d)) ∧
  (∀ e,
     BGEM3EmbeddingFunction.encode_queries (toy "BAAI/bge-m3") [test_text] = inl e →
     snd (health_check (ready (toy "BAAI/bge-m3")))
       = inl (mkHTTPException 503 ("Model check failed: " +:+ str e))).
Proof. apply (health_probe (ready (toy "BAAI/bge-m3")) (toy "BAAI/bge-m3")). reflexivity. Defined.

Example health_of_toy :
  snd (health_check (ready (toy "BAAI/bge-m3")))
  = inr (Health.mk "healthy" "BAAI/bge-m3" (Health.mkDimensions 2 250002)).
Proof. vm_compute. reflexivity. Qed.

Example health_of_failing_model :
  health_check (ready (out_of_memory "BAAI/bge-m3"))
  = (mkProcess (Some (out_of_memory "BAAI/bge-m3")) ∅
       [EncodeQueries [test_text];
        Log ERROR (HealthCheckFailed "CUDA out of memory")],
     inl (mkHTTPException 503 "Model check failed: CUDA out of memory")).
Proof. reflexivity. Qed.

(** C10: with the handle set and the probe call returning, [health_check]
    answers "healthy" whether or not [dim] has the keys, and reports 0 for a
    dimension whose key is missing. *)
Theorem health_missing_dimension (p : process) (ef : BGEM3EmbeddingFunction.t)
    (embeddings : native.t) :
  bge_m3_ef p = Some ef →
  BGEM3EmbeddingFunction.encode_queries ef [test_text] = inr embeddings →
  ∃ h, snd (health_check p) = inr h ∧
       Health.status h = "healthy" ∧
       (BGEM3EmbeddingFunction.dim ef !! "dense" = None →
        Health.dense (Health.dims h) = 0) ∧
       (BGEM3EmbeddingFunction.dim ef !! "sparse" = None →
        Health.sparse (Health.dims h) = 0).
Proof.
  intros Hef Henc. rewrite (health_set p ef Hef), Henc. cbn [snd].
  eexists. split; [reflexivity|]. cbn. unfold dim_get.
  split_and!; [done | by intros -> | by intros ->].
Qed.

Lemma health_missing_dimension_witness :
  ∃ h, snd (health_check (ready (dimensionless "BAAI/bge-m3"))) = inr h ∧
       Health.status h = "healthy" ∧
       (BGEM3EmbeddingFunction.dim (dimensionless "BAAI/bge-m3") !! "dense" = None →
        Health.dense (Health.dims h) = 0) ∧
       (BGEM3EmbeddingFunction.dim (dimensionless "BAAI/bge-m3") !! "sparse" = None →
        Health.sparse (Health.dims h) = 0).
Proof.
  apply (health_missing_dimension (ready (dimensionless "BAAI/bge-m3"))
           (dimensionless "BAAI/bge-m3")
           (native.mk (Some [[one; half]]) (Some [toy_csr test_text])));
    reflexivity.
Defined.

Example health_of_dimensionless :
  snd (health_check (ready (dimensionless "BAAI/bge-m3")))
  = inr (Health.mk "healthy" "BAAI/bge-m3" (Health.mkDimensions 0 0)).
Proof. reflexivity. Qed.

(** ** Startup and the lifetime of the handle *)

Lemma constructions_app tr1 tr2 :
  constructions (tr1 ++ tr2) = constructions tr1 ++ constructions tr2.
Proof. apply List.filter_app. Qed.

Ltac trace_constructions :=
  cbn [fst snd bge_m3_ef environ trace];
  rewrite ?constructions_app; cbn [constructions List.filter is_construct app];
  rewrite ?app_nil_r, <- ?app_assoc; try reflexivity.

(** [startup_event] constructs one handle, for the default model on the CPU,
    and leaves the environment alone. *)
Lemma startup_event_run new p :
  let p' := fst (startup_event new p) in
  constructions (trace p')
    = constructions (trace p) ++ [Construct "BAAI/bge-m3" "cpu" false] ∧
  environ p' = environ p.
Proof.
  unfold startup_event, call_constructor. run.
  destruct (new (environ p) "BAAI/bge-m3" "cpu" false) as [e|ef];
    split; trace_constructions.
Qed.

(** Case analysis on a run of [override_model_settings]: the constructor
    returns or raises, and [dim] has or lacks the two keys that are logged. *)
Ltac override_cases new :=
  run;
  (match goal with |- context [new ?env ?n ?d ?f] =>
     destruct (new env n d f) as [?e|?ef] end);
  cbn [fst snd bge_m3_ef environ trace];
  try (match goal with |- context [BGEM3EmbeddingFunction.dim ?ef !! "dense"] =>
         destruct (BGEM3EmbeddingFunction.dim ef !! "dense");
         cbn [fst snd bge_m3_ef environ trace];
         destruct (BGEM3EmbeddingFunction.dim ef !! "sparse") end).

(** [override_model_settings] constructs exactly one handle. *)
Lemma override_constructs_once {os_path : OsPath} new args p :
  ∃ c, constructions (trace (fst (override_model_settings new args p)))
       = constructions (trace p) ++ [c].
Proof.
  unfold override_model_settings, call_constructor, getitem.
  destruct (truthy (Args.local_model_path args)) as [path|];
    [destruct (path_exists (abspath path))|];
    override_cases new; eexists; trace_constructions.
Qed.

(** C6: [override_model_settings] sets TRANSFORMERS_CACHE to the parent
    directory of the absolute local path whenever a non-empty local path is
    given, whether or not it exists, and otherwise leaves the environment
    unchanged; it constructs one handle, whose model identifier is the
    absolute local path when that path is given and exists, and the
    [--model] name when no path is given or the path does not exist. *)
Theorem override_resolution {os_path : OsPath} (new : constructor)
    (args : Args.t) (p : process) :
  let p' := fst (override_model_settings new args p) in
  match truthy (Args.local_model_path args) with
  | Some path =>
      environ p'
        = <["TRANSFORMERS_CACHE" := dirname (abspath path)]> (environ p) ∧
      constructions (trace p')
        = constructions (trace p) ++
          [Construct (if path_exists (abspath path)
                      then abspath path else Args.model args)
             (Args.device args) (Args.fp16 args)]
  | None =>
      environ p' = environ p ∧
      constructions (trace p')
        = constructions (trace p) ++
          [Construct (Args.model args) (Args.device args) (Args.fp16 args)]
  end.
Proof.
  unfold override_model_settings, call_constructor, getitem.
  destruct (truthy (Args.local_model_path args)) as [path|];
    [destruct (path_exists (abspath path))|];
    override_cases new; split; trace_constructions.
Qed.

(** With [--local-model-path /models/bge-m3] on a disk that lacks the
    directory, the cache location is redirected all the same: the claim that
    it is redirected exactly when the path exists fails. *)
Lemma cache_redirected_for_missing_path :
  ¬ @cache_redirected_iff_path_exists bare_disk toy_new local_args (initial ∅).
Proof.
  unfold cache_redirected_iff_path_exists. intros [Hexists _].
  destruct Hexists as (path & Hpath & Hthere).
  - exists "/models/bge-m3". split; [reflexivity|]. vm_compute. reflexivity.
  - cbn in Hpath. injection Hpath as <-. vm_compute in Hthere. discriminate.
Qed.

Example missing_path_run :
  let p' := fst (@override_model_settings bare_disk toy_new local_args (initial ∅)) in
  environ p' !! "TRANSFORMERS_CACHE" = Some "/models" ∧
  trace p'
    = [Log INFO (UsingLocalPath "/models/bge-m3");
       Log WARNING (LocalPathNotFound "/models/bge-m3");
       Log INFO (LoadingModel "BAAI/bge-m3" "cpu");
       Construct "BAAI/bge-m3" "cpu" false;
       Log INFO ModelLoaded;
       Log INFO (DenseDimension 2);
       Log INFO (SparseDimension 250002)].
Proof. vm_compute. split; reflexivity. Qed.

Example present_path_run :
  let p' := fst (@override_model_settings stocked_disk toy_new local_args (initial ∅)) in
  environ p' !! "TRANSFORMERS_CACHE" = Some "/models" ∧
  constructions (trace p') = [Construct "/models/bge-m3" "cpu" false].
Proof. vm_compute. split; reflexivity. Qed.

(** A request leaves the handle and the environment alone and constructs
    nothing. *)
Lemma handle_request_frame r p :
  ∃ evs, handle_request r p = add_events evs p ∧ constructions evs = [].
Proof.
  destruct (bge_m3_ef p) as [ef|] eqn:Hef.
  - destruct r as [body|body|]; cbn [handle_request].
    + change (embed body p) with (post Query body p).
      rewrite (post_set Query body p ef Hef). eexists. split; [reflexivity|].
      unfold mismatch_warning. destruct (negb _), (converted _ _ _); reflexivity.
    + change (embed_document body p) with (post Document body p).
      rewrite (post_set Document body p ef Hef). eexists. split; [reflexivity|].
      unfold mismatch_warning. destruct (negb _), (converted _ _ _); reflexivity.
    + rewrite (health_set p ef Hef).
      destruct (BGEM3EmbeddingFunction.encode_queries ef [test_text]);
        eexists; (split; [reflexivity|]); reflexivity.
  - exists []. rewrite add_events_nil. split; [|reflexivity].
    destruct r as [body|body|]; cbn [handle_request].
    + change (embed body p) with (post Query body p).
      by rewrite (post_unset Query body p Hef).
    + change (embed_document body p) with (post Document body p).
      by rewrite (post_unset Document body p Hef).
    + run. by rewrite Hef.
Qed.

Lemma serve_frame requests p :
  bge_m3_ef (serve requests p) = bge_m3_ef p ∧
  environ (serve requests p) = environ p ∧
  constructions (trace (serve requests p)) = constructions (trace p).
Proof.
  revert p. induction requests as [|r requests IH]; intros p; [done|].
  cbn [serve foldl]. fold (serve requests (handle_request r p)).
  destruct (IH (handle_request r p)) as (-> & -> & ->).
  destruct (handle_request_frame r p) as (evs & -> & Hevs).
  cbn [add_events bge_m3_ef environ trace].
  by rewrite constructions_app, Hevs, app_nil_r.
Qed.

(** C5: startup constructs one handle per startup handler that runs:
    exactly one when the module is imported by a server, at most two when the
    file is run as a script (the second by [override_model_settings], which
    replaces the first); afterwards no sequence of requests reassigns the
    handle, constructs another one, or touches the environment. *)
Theorem handle_fixed_while_serving {os_path : OsPath} (new : constructor)
    (l : launch) (env : gmap string string) (requests : list request) :
  let started := fst (startup new l (initial env)) in
  let final := serve requests started in
  (length (constructions (trace started))
     ≤ match l with Imported => 1 | Script _ => 2 end)%nat ∧
  (l = Imported →
   constructions (trace started) = [Construct "BAAI/bge-m3" "cpu" false]) ∧
  bge_m3_ef final = bge_m3_ef started ∧
  constructions (trace final) = constructions (trace started) ∧
  environ final = environ started.
Proof.
  cbv zeta.
  destruct (serve_frame requests (fst (startup new l (initial env))))
    as (-> & -> & ->).
  split_and!; try reflexivity.
  - destruct l as [|args]; unfold startup; cbn [on_startup run_handlers length].
    + pose proof (startup_event_run new (initial env)) as [Hc _].
      run. destruct (startup_event new (initial env)) as [p' [e|[]]];
        cbn [fst] in *; rewrite Hc; cbn; lia.
    + pose proof (startup_event_run new (initial env)) as [Hc _].
      run. destruct (startup_event new (initial env)) as [p' [e|[]]];
        cbn [fst] in *.
      * rewrite Hc. cbn. lia.
      * destruct (override_constructs_once new args p') as [c Ho].
        destruct (override_model_settings new args p') as [p'' [e|[]]];
          cbn [fst] in *; rewrite Ho, Hc; cbn; lia.
  - intros ->. unfold startup. cbn [on_startup run_handlers].
    pose proof (startup_event_run new (initial env)) as [Hc _].
    run. destruct (startup_event new (initial env)) as [p' [e|[]]];
      cbn [fst] in *; by rewrite Hc.
Qed.

(** Run as a script, the file loads the model twice, and the second handle
    replaces the first. *)
Lemma script_launch_constructs_twice :
  let loaded := fst (startup_event toy_new (initial ∅)) in
  let started := fst (@startup bare_disk toy_new (Script custom_args) (initial ∅)) in
  ¬ constructed_at_most_once started ∧
  BGEM3EmbeddingFunction.model_name <$> bge_m3_ef loaded = Some "BAAI/bge-m3" ∧
  BGEM3EmbeddingFunction.model_name <$> bge_m3_ef started
    = Some "BAAI/bge-m3-unsupervised".
Proof.
  cbv zeta. split_and!.
  - unfold constructed_at_most_once. vm_compute. lia.
  - reflexivity.
  - reflexivity.
Qed.

Example script_launch_trace :
  constructions
    (trace (fst (@startup bare_disk toy_new (Script custom_args) (initial ∅))))
  = [Construct "BAAI/bge-m3" "cpu" false;
     Construct "BAAI/bge-m3-unsupervised" "cpu" false].
Proof. reflexivity. Qed.

(** The same happens with no command-line argument at all: the default model
    is loaded by both handlers. *)
Example default_script_launch_trace :
  constructions
    (trace (fst (@startup bare_disk toy_new (Script Args.defaults) (initial ∅))))
  = [Construct "BAAI/bge-m3" "cpu" false; Construct "BAAI/bge-m3" "cpu" false].
Proof. reflexivity. Qed.

(** Imported by a server, only [startup_event] runs. *)
Example imported_launch_trace :
  trace (fst (@startup bare_disk toy_new Imported (initial ∅)))
  = [Log INFO (LoadingModel "BAAI/bge-m3" "cpu");
     Construct "BAAI/bge-m3" "cpu" false;
     Log INFO ModelLoaded].
Proof. reflexivity. Qed.

(** Requests served after startup leave the handle in place. *)
Example serving_keeps_handle :
  let started := fst (@startup bare_disk toy_new Imported (initial ∅)) in
  BGEM3EmbeddingFunction.model_name
    <$> bge_m3_ef (serve [GetHealth; PostEmbed hello; PostEmbedDocument hello] started)
  = Some "BAAI/bge-m3" ∧
  encode_calls
    (trace (serve [GetHealth; PostEmbed hello; PostEmbedDocument hello] started))
  = [EncodeQueries [test_text]; EncodeQueries ["hello world"];
     EncodeDocuments ["hello world"]].
Proof. vm_compute. split; reflexivity. Qed.

(** ** Outcomes of the startup handlers *)

(** X1: when the constructor raises, [startup_event] logs the failure,
    re-raises the same exception and leaves the handle and the environment as
    they were. *)
Theorem startup_event_failure (new : constructor) (p : process) (e : exception) :
  new (environ p) "BAAI/bge-m3" "cpu" false = inl e →
  startup_event new p
  = (add_events [Log INFO (LoadingModel "BAAI/bge-m3" "cpu");
                 Construct "BAAI/bge-m3" "cpu" false;
                 Log ERROR (LoadFailed (str e))] p,
     inl e).
Proof.
  intros Hnew. unfold startup_event, call_constructor, add_events. run.
  rewrite Hnew. cbn [fst snd bge_m3_ef environ trace].
  by rewrite <- !app_assoc.
Qed.

Lemma startup_event_failure_witness :
  startup_event failing_new (initial ∅)
  = (add_events [Log INFO (LoadingModel "BAAI/bge-m3" "cpu");
                 Construct "BAAI/bge-m3" "cpu" false;
                 Log ERROR (LoadFailed (str (Exception "model files not found")))]
       (initial ∅),
     inl (Exception "model files not found")).
Proof.
  apply (startup_event_failure failing_new (initial ∅)
           (Exception "model files not found")).
  reflexivity.
Defined.

(** X2: when the constructor returns a handle for the fixed settings
    ("BAAI/bge-m3", "cpu", no fp16), [startup_event] installs that handle in
    place of whatever [bge_m3_ef] held and returns normally; the environment
    is untouched. *)
Theorem startup_event_success (new : constructor) (p : process)
    (ef : BGEM3EmbeddingFunction.t) :
  new (environ p) "BAAI/bge-m3" "cpu" false = inr ef →
  startup_event new p
  = (mkProcess (Some ef) (environ p)
       (trace p ++ [Log INFO (LoadingModel "BAAI/bge-m3" "cpu");
                    Construct "BAAI/bge-m3" "cpu" false;
                    Log INFO ModelLoaded]),
     inr ()).
Proof.
  intros Hnew. unfold startup_event, call_constructor. run.
  rewrite Hnew. cbn [fst snd bge_m3_ef environ trace].
  by rewrite <- !app_assoc.
Qed.

Lemma startup_event_success_witness :
  startup_event toy_new (ready (out_of_memory "old"))
  = (mkProcess (Some (toy "BAAI/bge-m3")) (environ (ready (out_of_memory "old")))
       (trace (ready (out_of_memory "old"))
          ++ [Log INFO (LoadingModel "BAAI/bge-m3" "cpu");
              Construct "BAAI/bge-m3" "cpu" false;
              Log INFO ModelLoaded]),
     inr ()).
Proof.
  apply (startup_event_success toy_new (ready (out_of_memory "old"))
           (toy "BAAI/bge-m3")).
  reflexivity.
Defined.

(** Unfolding of [override_model_settings] up to the constructor call. *)
Ltac override_to_constructor :=
  unfold override_model_settings, call_constructor, getitem,
    resolved_environ, resolved_model_name in *;
  destruct (truthy (Args.local_model_path _)) as [?path|];
    [destruct (path_exists (abspath _))|];
  run.

(** X3: [override_model_settings] calls the constructor on the environment
    in which the cache location is already redirected, with the resolved
    model identifier; when that call returns a handle whose [dim] has both
    keys, the handle is installed, the redirection stays and the handler
    returns normally. *)
Theorem override_success {os_path : OsPath} (new : constructor) (args : Args.t)
    (p : process) (ef : BGEM3EmbeddingFunction.t) (d s : Z) :
  new (resolved_environ args (environ p)) (resolved_model_name args)
      (Args.device args) (Args.fp16 args) = inr ef →
  BGEM3EmbeddingFunction.dim ef !! "dense" = Some d →
  BGEM3EmbeddingFunction.dim ef !! "sparse" = Some s →
  snd (override_model_settings new args p) = inr () ∧
  bge_m3_ef (fst (override_model_settings new args p)) = Some ef ∧
  environ (fst (override_model_settings new args p))
    = resolved_environ args (environ p).
Proof.
  intros Hnew Hd Hs. override_to_constructor;
    rewrite Hnew; cbn [fst snd bge_m3_ef environ trace];
    rewrite Hd; cbn [fst snd bge_m3_ef environ trace];
    rewrite Hs; done.
Qed.

Lemma override_success_witness :
  snd (@override_model_settings stocked_disk offline_new local_args (initial ∅))
    = inr () ∧
  bge_m3_ef (fst (@override_model_settings stocked_disk offline_new local_args
                    (initial ∅)))
    = Some (toy "/models/bge-m3") ∧
  environ (fst (@override_model_settings stocked_disk offline_new local_args
                  (initial ∅)))
    = @resolved_environ stocked_disk local_args (environ (initial ∅)).
Proof.
  apply (@override_success stocked_disk offline_new local_args (initial ∅)
           (toy "/models/bge-m3") 2 250002);
    vm_compute; reflexivity.
Defined.

(** The library that needs the cache directory fails at import time, where
    only [startup_event] runs and the environment is not redirected. *)
Example offline_import_fails :
  snd (@startup stocked_disk offline_new Imported (initial ∅))
  = inl (Exception "cannot reach the model hub").
Proof. vm_compute. reflexivity. Qed.

(** X4: when the constructor returns a handle whose [dim] lacks "dense" or
    "sparse", [override_model_settings] raises [KeyError] for the first
    missing key while logging the dimensions, after the handle has been
    installed: the startup handler fails with [bge_m3_ef] set. *)
Theorem override_missing_dimension {os_path : OsPath} (new : constructor)
    (args : Args.t) (p : process) (ef : BGEM3EmbeddingFunction.t) :
  new (resolved_environ args (environ p)) (resolved_model_name args)
      (Args.device args) (Args.fp16 args) = inr ef →
  BGEM3EmbeddingFunction.dim ef !! "dense" = None ∨
  BGEM3EmbeddingFunction.dim ef !! "sparse" = None →
  ∃ key,
    snd (override_model_settings new args p) = inl (KeyError key) ∧
    (key = "dense" ↔ BGEM3EmbeddingFunction.dim ef !! "dense" = None) ∧
    (key = "sparse" ↔ BGEM3EmbeddingFunction.dim ef !! "dense" ≠ None) ∧
    bge_m3_ef (fst (override_model_settings new args p)) = Some ef ∧
    last (trace (fst (override_model_settings new args p)))
      = Some (Log ERROR (LoadFailed (str (KeyError key)))).
Proof.
  intros Hnew Hmissing.
  destruct (BGEM3EmbeddingFunction.dim ef !! "dense") as [d|] eqn:Hd.
  - destruct Hmissing as [|Hs]; [done|]. exists "sparse".
    override_to_constructor;
      rewrite Hnew; cbn [fst snd bge_m3_ef environ trace];
      rewrite Hd; cbn [fst snd bge_m3_ef environ trace];
      rewrite Hs; cbn [fst snd bge_m3_ef environ trace];
      rewrite last_snoc; split_and!; done.
  - exists "dense".
    override_to_constructor;
      rewrite Hnew; cbn [fst snd bge_m3_ef environ trace];
      rewrite Hd; cbn [fst snd bge_m3_ef environ trace];
      rewrite last_snoc; split_and!; done.
Qed.

Lemma override_missing_dimension_witness :
  ∃ key,
    snd (@override_model_settings bare_disk dimensionless_new custom_args (initial ∅))
      = inl (KeyError key) ∧
    (key = "dense" ↔
     BGEM3EmbeddingFunction.dim (dimensionless "BAAI/bge-m3-unsupervised") !! "dense"
       = None) ∧
    (key = "sparse" ↔
     BGEM3EmbeddingFunction.dim (dimensionless "BAAI/bge-m3-unsupervised") !! "dense"
       ≠ None) ∧
    bge_m3_ef (fst (@override_model_settings bare_disk dimensionless_new custom_args
                      (initial ∅)))
      = Some (dimensionless "BAAI/bge-m3-unsupervised") ∧
    last (trace (fst (@override_model_settings bare_disk dimensionless_new custom_args
                        (initial ∅))))
      = Some (Log ERROR (LoadFailed (str (KeyError key)))).
Proof.
  apply (@override_missing_dimension bare_disk dimensionless_new custom_args
           (initial ∅) (dimensionless "BAAI/bge-m3-unsupervised"));
    [reflexivity | left; reflexivity].
Defined.

(** X5: when the constructor raises, [override_model_settings] re-raises
    the same exception and keeps the handle it found (the one installed by
    [startup_event], if any), but the redirection of the cache location is
    not undone. *)
Theorem override_failure {os_path : OsPath} (new : constructor) (args : Args.t)
    (p : process) (e : exception) :
  new (resolved_environ args (environ p)) (resolved_model_name args)
      (Args.device args) (Args.fp16 args) = inl e →
  snd (override_model_settings new args p) = inl e ∧
  bge_m3_ef (fst (override_model_settings new args p)) = bge_m3_ef p ∧
  environ (fst (override_model_settings new args p))
    = resolved_environ args (environ p) ∧
  last (trace (fst (override_model_settings new args p)))
    = Some (Log ERROR (LoadFailed (str e))).
Proof.
  intros Hnew. override_to_constructor;
    rewrite Hnew; cbn [fst snd bge_m3_ef environ trace];
    rewrite last_snoc; done.
Qed.

Lemma override_failure_witness :
  snd (@override_model_settings bare_disk failing_new local_args
         (ready (toy "BAAI/bge-m3")))
    = inl (Exception "model files not found") ∧
  bge_m3_ef (fst (@override_model_settings bare_disk failing_new local_args
                    (ready (toy "BAAI/bge-m3"))))
    = bge_m3_ef (ready (toy "BAAI/bge-m3")) ∧
  environ (fst (@override_model_settings bare_disk failing_new local_args
                  (ready (toy "BAAI/bge-m3"))))
    = @resolved_environ bare_disk local_args (environ (ready (toy "BAAI/bge-m3"))) ∧
  last (trace (fst (@override_model_settings bare_disk failing_new local_args
                      (ready (toy "BAAI/bge-m3")))))
    = Some (Log ERROR (LoadFailed (str (Exception "model files not found")))).
Proof.
  apply (@override_failure bare_disk failing_new local_args
           (ready (toy "BAAI/bge-m3")) (Exception "model files not found")).
  reflexivity.
Defined.

Example override_failure_keeps_redirection :
  environ (fst (@override_model_settings bare_disk failing_new local_args
                  (ready (toy "BAAI/bge-m3")))) !! "TRANSFORMERS_CACHE"
  = Some "/models".
Proof. vm_compute. reflexivity. Qed.

Lemma records_app lvl tr1 tr2 :
  records lvl (tr1 ++ tr2) = records lvl tr1 ++ records lvl tr2.
Proof. apply List.filter_app. Qed.

(** X6: [override_model_settings] logs the "local model path not found"
    warning exactly when a non-empty local path is given and does not exist;
    it logs no other warning. *)
Theorem path_warning_iff_missing {os_path : OsPath} (new : constructor)
    (args : Args.t) (p : process) :
  records WARNING (trace (fst (override_model_settings new args p)))
  = records WARNING (trace p) ++
    match truthy (Args.local_model_path args) with
    | Some path =>
        if path_exists (abspath path) then []
        else [Log WARNING (LocalPathNotFound (abspath path))]
    | None => []
    end.
Proof.
  unfold override_model_settings, call_constructor, getitem.
  destruct (truthy (Args.local_model_path args)) as [path|];
    [destruct (path_exists (abspath path))|];
    override_cases new; cbn [fst snd bge_m3_ef environ trace];
    rewrite ?records_app; cbn [records List.filter is_record app];
    rewrite ?app_nil_r; reflexivity.
Qed.

(** ** The embedding routes: library calls and log records *)

(** X7: with the handle set, an embedding route makes exactly one call into
    the library, to the encoder of its own mode and with the whole list of
    texts (the empty list included), whether the request succeeds or not. *)
Theorem one_encode_call_per_request (m : mode) (request : EmbeddingRequest.t)
    (p : process) (ef : BGEM3EmbeddingFunction.t) :
  bge_m3_ef p = Some ef →
  encode_calls (trace (fst (post m request p)))
  = encode_calls (trace p) ++ [encode_event m (EmbeddingRequest.texts request)].
Proof.
  intros Hef. rewrite (post_set m request p ef Hef).
  cbn [fst add_events trace]. unfold encode_calls at 1.
  rewrite !List.filter_app. fold (encode_calls (trace p)). f_equal.
  unfold mismatch_warning.
  destruct m, (negb _), (converted _ ef (EmbeddingRequest.texts request));
    reflexivity.
Qed.

Lemma one_encode_call_per_request_witness :
  encode_calls
    (trace (fst (post Document (EmbeddingRequest.mk [] "BAAI/bge-m3")
                   (ready (out_of_memory "BAAI/bge-m3")))))
  = encode_calls (trace (ready (out_of_memory "BAAI/bge-m3")))
    ++ [encode_event Document
          (EmbeddingRequest.texts (EmbeddingRequest.mk [] "BAAI/bge-m3"))].
Proof.
  apply (one_encode_call_per_request Document (EmbeddingRequest.mk [] "BAAI/bge-m3")
           (ready (out_of_memory "BAAI/bge-m3")) (out_of_memory "BAAI/bge-m3")).
  reflexivity.
Defined.

(** X8: with the handle set, an embedding route logs an ERROR record
    exactly when the response it returns carries an error, and never more
    than one. *)
Theorem error_logged_iff_error_returned (m : mode) (request : EmbeddingRequest.t)
    (p : process) (ef : BGEM3EmbeddingFunction.t) :
  bge_m3_ef p = Some ef →
  ∃ evs response,
    trace (fst (post m request p)) = trace p ++ evs ∧
    snd (post m request p) = inr response ∧
    (records ERROR evs = [] ↔ EmbeddingResponse.error response = None) ∧
    (length (records ERROR evs) ≤ 1)%nat.
Proof.
  intros Hef. rewrite (post_set m request p ef Hef).
  cbn [fst snd add_events trace]. eexists _, _.
  split; [reflexivity|]. split; [reflexivity|].
  unfold mismatch_warning.
  destruct m, (negb _), (converted _ ef (EmbeddingRequest.texts request));
    cbn; split; (split; done) || lia.
Qed.

Lemma error_logged_iff_error_returned_witness :
  ∃ evs response,
    trace (fst (post Query hello (ready (dense_only "BAAI/bge-m3"))))
      = trace (ready (dense_only "BAAI/bge-m3")) ++ evs ∧
    snd (post Query hello (ready (dense_only "BAAI/bge-m3"))) = inr response ∧
    (records ERROR evs = [] ↔ EmbeddingResponse.error response = None) ∧
    (length (records ERROR evs) ≤ 1)%nat.
Proof.
  apply (error_logged_iff_error_returned Query hello
           (ready (dense_only "BAAI/bge-m3")) (dense_only "BAAI/bge-m3")).
  reflexivity.
Defined.

(** X9: with the handle set, an embedding route logs a WARNING record
    exactly when the requested model name is not the loaded one. *)
Theorem warning_iff_mismatch (m : mode) (request : EmbeddingRequest.t)
    (p : process) (ef : BGEM3EmbeddingFunction.t) :
  bge_m3_ef p = Some ef →
  ∃ evs,
    trace (fst (post m request p)) = trace p ++ evs ∧
    (records WARNING evs = [] ↔
     EmbeddingRequest.model_name request = BGEM3EmbeddingFunction.model_name ef).
Proof.
  intros Hef. rewrite (post_set m request p ef Hef).
  cbn [fst add_events trace]. eexists. split; [reflexivity|].
  unfold mismatch_warning.
  destruct (String.eqb_spec (EmbeddingRequest.model_name request)
              (BGEM3EmbeddingFunction.model_name ef)) as [Heq|Hne];
    cbn [negb]; destruct m, (converted _ ef (EmbeddingRequest.texts request));
    cbn; split; done.
Qed.

Lemma warning_iff_mismatch_witness :
  ∃ evs,
    trace (fst (post Query hello (ready (toy "BAAI/bge-m3"))))
      = trace (ready (toy "BAAI/bge-m3")) ++ evs ∧
    (records WARNING evs = [] ↔
     EmbeddingRequest.model_name hello
       = BGEM3EmbeddingFunction.model_name (toy "BAAI/bge-m3")).
Proof.
  apply (warning_iff_mismatch Query hello (ready (toy "BAAI/bge-m3"))
           (toy "BAAI/bge-m3")).
  reflexivity.
Defined.

(** ** Conversion *)





(** X11: when the library's result lacks the "dense" or the "sparse" entry,
    the route answers with the error message made of its prefix and the
    quoted name of the missing key, "dense" being looked up first. *)
Theorem missing_key_reported (m : mode) (request : EmbeddingRequest.t)
    (p : process) (ef : BGEM3EmbeddingFunction.t) (embeddings : native.t) :
  bge_m3_ef p = Some ef →
  encode m ef (EmbeddingRequest.texts request) = inr embeddings →
  native.dense embeddings = None ∨ native.sparse embeddings = None →
  ∃ key,
    snd (post m request p)
      = inr (EmbeddingResponse.mk ∅
               (Some (failure_prefix m +:+ "'" +:+ key +:+ "'"))) ∧
    (key = "dense" ↔ native.dense embeddings = None) ∧
    (key = "sparse" ↔ native.dense embeddings ≠ None).
Proof.
  intros Hef Henc Hmissing. rewrite (post_set m request p ef Hef). cbn [snd].
  unfold converted. rewrite Henc. unfold serialize, getitem.
  destruct (native.dense embeddings) as [ds|].
  - destruct Hmissing as [? | ->]; [done|]. exists "sparse". by split_and!.
  - exists "dense". by split_and!.
Qed.

Lemma missing_key_reported_witness :
  ∃ key,
    snd (post Query hello (ready (dense_only "BAAI/bge-m3")))
      = inr (EmbeddingResponse.mk ∅
               (Some (failure_prefix Query +:+ "'" +:+ key +:+ "'"))) ∧
    (key = "dense" ↔ native.dense (native.mk (Some [[one; half]]) None) = None) ∧
    (key = "sparse" ↔ native.dense (native.mk (Some [[one; half]]) None) ≠ None).
Proof.
  apply (missing_key_reported Query hello (ready (dense_only "BAAI/bge-m3"))
           (dense_only "BAAI/bge-m3") (native.mk (Some [[one; half]]) None));
    [reflexivity | reflexivity | right; reflexivity].
Defined.

(** ** Which requests fail *)

(** X12: an embedding route raises an HTTP error exactly when the handle is
    unset, and the error is then the 500 "Embedding model not initialized";
    every other failure is reported inside a returned response. *)
Theorem http_error_iff_unset (m : mode) (request : EmbeddingRequest.t)
    (p : process) (exc : HTTPException) :
  snd (post m request p) = inl exc ↔
  bge_m3_ef p = None ∧ exc = mkHTTPException 500 "Embedding model not initialized".
Proof.
  destruct (bge_m3_ef p) as [ef|] eqn:Hef.
  - rewrite (post_set m request p ef Hef). cbn [snd]. split; [done | by intros [? _]].
  - rewrite (post_unset m request p Hef). cbn [snd]. unfold not_initialized.
    split; [by intros [= <-] | by intros [_ ->]].
Qed.

(** X13: the health check answers normally exactly when the handle is set
    and the probe call returns; what the probe returns is not looked at. *)
Theorem health_ok_iff_probe_returns (p : process) :
  (∃ h, snd (health_check p) = inr h) ↔
  ∃ ef embeddings,
    bge_m3_ef p = Some ef ∧
    BGEM3EmbeddingFunction.encode_queries ef [test_text] = inr embeddings.
Proof.
  destruct (bge_m3_ef p) as [ef|] eqn:Hef.
  - rewrite (health_set p ef Hef).
    destruct (BGEM3EmbeddingFunction.encode_queries ef [test_text])
      as [e|embeddings] eqn:Hprobe; cbn [snd].
    + split; [by intros [h ?] | intros (ef' & out & [= <-] & Hout); congruence].
    + split; [intros _; by exists ef, embeddings | eauto].
  - split.
    + intros [h Hh]. revert Hh. run. by rewrite Hef.
    + by intros (ef & out & ? & _).
Qed.

(** X14: a healthy answer does not mean that embedding works: when the
    probe call returns a result that the conversion rejects, the health check
    still answers "healthy" while [/embed] on the same sentence answers with
    the conversion error. *)
Theorem healthy_but_unconvertible (p : process) (ef : BGEM3EmbeddingFunction.t)
    (embeddings : native.t) (e : exception) (model_name : string) :
  bge_m3_ef p = Some ef →
  BGEM3EmbeddingFunction.encode_queries ef [test_text] = inr embeddings →
  serialize embeddings = inl e →
  snd (health_check p)
    = inr (Health.mk "healthy" (BGEM3EmbeddingFunction.model_name ef)
             (Health.mkDimensions (dim_get ef "dense") (dim_get ef "sparse"))) ∧
  snd (embed (EmbeddingRequest.mk [test_text] model_name) p)
    = inr (EmbeddingResponse.mk ∅
             (Some ("Failed to generate embeddings: " +:+ str e))).
Proof.
  intros Hef Hprobe Hser. split.
  - by rewrite (health_set p ef Hef), Hprobe.
  - change (embed ?r p) with (post Query r p).
    rewrite (post_set Query _ p ef Hef). cbn [snd EmbeddingRequest.texts].
    unfold converted. cbn [encode]. by rewrite Hprobe, Hser.
Qed.

Lemma healthy_but_unconvertible_witness :
  snd (health_check (ready (dense_only "BAAI/bge-m3")))
    = inr (Health.mk "healthy"
             (BGEM3EmbeddingFunction.model_name (dense_only "BAAI/bge-m3"))
             (Health.mkDimensions (dim_get (dense_only "BAAI/bge-m3") "dense")
                (dim_get (dense_only "BAAI/bge-m3") "sparse"))) ∧
  snd (embed (EmbeddingRequest.mk [test_text] "BAAI/bge-m3")
         (ready (dense_only "BAAI/bge-m3")))
    = inr (EmbeddingResponse.mk ∅
             (Some ("Failed to generate embeddings: " +:+ str (KeyError "sparse")))).
Proof.
  apply (healthy_but_unconvertible (ready (dense_only "BAAI/bge-m3"))
           (dense_only "BAAI/bge-m3") (native.mk (Some [[one; half]]) None)
           (KeyError "sparse") "BAAI/bge-m3");
    reflexivity.
Defined.

(** ** From startup to serving *)

Lemma startup_event_returns new p p' :
  startup_event new p = (p', inr ()) →
  ∃ ef, new (environ p) "BAAI/bge-m3" "cpu" false = inr ef ∧
        bge_m3_ef p' = Some ef ∧ environ p' = environ p.
Proof.
  unfold startup_event, call_constructor. run.
  destruct (new (environ p) "BAAI/bge-m3" "cpu" false) as [e|ef];
    cbn [fst snd bge_m3_ef environ trace]; [discriminate|].
  intros [= <-]. by exists ef.
Qed.

Lemma override_returns {os_path : OsPath} new args p p' :
  override_model_settings new args p = (p', inr ()) →
  ∃ ef, new (resolved_environ args (environ p)) (resolved_model_name args)
            (Args.device args) (Args.fp16 args) = inr ef ∧
        bge_m3_ef p' = Some ef.
Proof.
  override_to_constructor;
    (match goal with |- context [new ?env ?n ?d ?f] =>
       destruct (new env n d f) as [e|ef] end);
    cbn [fst snd bge_m3_ef environ trace]; try discriminate;
    (destruct (BGEM3EmbeddingFunction.dim ef !! "dense");
     cbn [fst snd bge_m3_ef environ trace]; [|discriminate]);
    (destruct (BGEM3EmbeddingFunction.dim ef !! "sparse");
     cbn [fst snd bge_m3_ef environ trace]; [|discriminate]);
    intros [= <-]; by exists ef.
Qed.

(** A startup that returns has run every registered handler to its end. *)
Lemma startup_returns {os_path : OsPath} new l p :
  snd (startup new l p) = inr () →
  ∃ p1, startup_event new p = (p1, inr ()) ∧
        match l with
        | Imported => fst (startup new l p) = p1
        | Script args =>
            override_model_settings new args p1 = (fst (startup new l p), inr ())
        end.
Proof.
  unfold startup. destruct l as [|args]; cbn [on_startup run_handlers];
    unfold mbind, M_bind, mret, M_ret, bind, ret;
    destruct (startup_event new p) as [p1 [e|[]]]; cbn [fst snd]; try discriminate.
  - intros _. by exists p1.
  - destruct (override_model_settings new args p1) as [p2 [e|[]]] eqn:Ho;
      cbn [fst snd]; [discriminate|]. intros _. by exists p1.
Qed.

(** X15: once startup has returned, whether the file was imported or run as
    a script, the embedding routes answer every later request with a
    response: the 500 "Embedding model not initialized" cannot occur. *)
Theorem ready_after_startup {os_path : OsPath} (new : constructor) (l : launch)
    (env : gmap string string) (requests : list request) (m : mode)
    (request : EmbeddingRequest.t) :
  snd (startup new l (initial env)) = inr () →
  ∃ response,
    snd (post m request (serve requests (fst (startup new l (initial env)))))
    = inr response.
Proof.
  intros Hok. destruct (startup_returns new l (initial env) Hok) as (p1 & H1 & Hl).
  destruct (startup_event_returns new _ _ H1) as (ef1 & _ & Hef1 & _).
  assert (∃ ef, bge_m3_ef (fst (startup new l (initial env))) = Some ef)
    as [ef Hef].
  { destruct l as [|args].
    - rewrite Hl. eauto.
    - destruct (override_returns new args p1 _ Hl) as (ef & _ & Hef). eauto. }
  destruct (serve_frame requests (fst (startup new l (initial env))))
    as (Hserve & _ & _).
  rewrite <- Hserve in Hef.
  rewrite (post_set m request _ ef Hef). cbn [snd]. eauto.
Qed.

Lemma ready_after_startup_witness :
  ∃ response,
    snd (post Query hello
           (serve [GetHealth; PostEmbedDocument hello]
              (fst (@startup stocked_disk offline_new (Script local_args)
                      (initial (<["TRANSFORMERS_CACHE" := "/models"]> ∅))))))
    = inr response.
Proof.
  apply (@ready_after_startup stocked_disk offline_new (Script local_args)
           (<["TRANSFORMERS_CACHE" := "/models"]> ∅)
           [GetHealth; PostEmbedDocument hello] Query hello).
  vm_compute. reflexivity.
Defined.

(** X16: after a startup that returned, the handle in place is the one the
    constructor gave for the fixed default settings when the file was
    imported, and the one it gave for the command line (resolved model
    identifier, device, precision, redirected environment) when the file was
    run as a script: the handle built first by [startup_event] is dropped. *)
Theorem handle_after_startup {os_path : OsPath} (new : constructor) (l : launch)
    (env : gmap string string) :
  snd (startup new l (initial env)) = inr () →
  ∃ ef,
    bge_m3_ef (fst (startup new l (initial env))) = Some ef ∧
    match l with
    | Imported => new env "BAAI/bge-m3" "cpu" false = inr ef
    | Script args =>
        new (resolved_environ args env) (resolved_model_name args)
            (Args.device args) (Args.fp16 args) = inr ef
    end.
Proof.
  intros Hok. destruct (startup_returns new l (initial env) Hok) as (p1 & H1 & Hl).
  destruct (startup_event_returns new _ _ H1) as (ef1 & Hnew1 & Hef1 & Henv1).
  destruct l as [|args].
  - exists ef1. rewrite Hl. done.
  - destruct (override_returns new args p1 _ Hl) as (ef & Hnew & Hef).
    exists ef. split; [done|]. by rewrite Henv1 in Hnew.
Qed.

Lemma handle_after_startup_witness :
  ∃ ef,
    bge_m3_ef (fst (@startup bare_disk toy_new (Script custom_args) (initial ∅)))
      = Some ef ∧
    toy_new (@resolved_environ bare_disk custom_args ∅)
            (@resolved_model_name bare_disk custom_args)
            (Args.device custom_args) (Args.fp16 custom_args) = inr ef.
Proof.
  apply (@handle_after_startup bare_disk toy_new (Script custom_args) ∅).
  reflexivity.
Defined.

(** ** Sequences of requests *)

Lemma handle_request_one_call r p ef :
  bge_m3_ef p = Some ef →
  bge_m3_ef (handle_request r p) = Some ef ∧
  ∃ call, encode_calls (trace (handle_request r p)) = encode_calls (trace p) ++ [call].
Proof.
  intros Hef. destruct r as [body|body|]; cbn [handle_request].
  - change (embed body p) with (post Query body p).
    rewrite (post_set Query body p ef Hef). cbn [fst add_events bge_m3_ef trace].
    split; [done|]. exists (EncodeQueries (EmbeddingRequest.texts body)).
    unfold encode_calls. rewrite !List.filter_app. f_equal.
    unfold mismatch_warning. destruct (negb _), (converted _ _ _); reflexivity.
  - change (embed_document body p) with (post Document body p).
    rewrite (post_set Document body p ef Hef). cbn [fst add_events bge_m3_ef trace].
    split; [done|]. exists (EncodeDocuments (EmbeddingRequest.texts body)).
    unfold encode_calls. rewrite !List.filter_app. f_equal.
    unfold mismatch_warning. destruct (negb _), (converted _ _ _); reflexivity.
  - rewrite (health_set p ef Hef).
    destruct (BGEM3EmbeddingFunction.encode_queries ef [test_text]);
      cbn [fst add_events bge_m3_ef trace]; (split; [done|]);
      exists (EncodeQueries [test_text]);
      unfold encode_calls; rewrite List.filter_app; reflexivity.
Qed.

(** X17: with the handle set, serving any sequence of requests makes one
    call into the library per request, health checks included: nothing is
    cached, batched across requests, or skipped. *)
Theorem one_library_call_per_request (requests : list request) (p : process)
    (ef : BGEM3EmbeddingFunction.t) :
  bge_m3_ef p = Some ef →
  length (encode_calls (trace (serve requests p)))
  = (length (encode_calls (trace p)) + length requests)%nat.
Proof.
  revert p. induction requests as [|r requests IH]; intros p Hef.
  - cbn. lia.
  - cbn [serve foldl]. fold (serve requests (handle_request r p)).
    destruct (handle_request_one_call r p ef Hef) as (Hef' & call & Hcall).
    rewrite (IH _ Hef'), Hcall, length_app. cbn. lia.
Qed.

Lemma one_library_call_per_request_witness :
  length (encode_calls
            (trace (serve [GetHealth; PostEmbed hello; PostEmbed hello]
                      (ready (out_of_memory "BAAI/bge-m3")))))
  = (length (encode_calls (trace (ready (out_of_memory "BAAI/bge-m3"))))
     + length [GetHealth; PostEmbed hello; PostEmbed hello])%nat.
Proof.
  apply (one_library_call_per_request [GetHealth; PostEmbed hello; PostEmbed hello]
           (ready (out_of_memory "BAAI/bge-m3")) (out_of_memory "BAAI/bge-m3")).
  reflexivity.
Defined.

(** X18: with the handle unset, serving any sequence of requests leaves the
    process exactly as it was: nothing is logged, no call reaches the library
    and the handle stays unset, so no request can bring the service up. *)
Theorem unset_handle_stays_unset (requests : list request) (p : process) :
  bge_m3_ef p = None → serve requests p = p.
Proof.
  intros Hef. induction requests as [|r requests IH]; [done|].
  cbn [serve foldl].
  assert (handle_request r p = p) as ->; [|exact IH].
  destruct r as [body|body|]; cbn [handle_request].
  - change (embed body p) with (post Query body p).
    by rewrite (post_unset Query body p Hef).
  - change (embed_document body p) with (post Document body p).
    by rewrite (post_unset Document body p Hef).
  - run. by rewrite Hef.
Qed.

Lemma unset_handle_stays_unset_witness :
  serve [GetHealth; PostEmbed hello; PostEmbedDocument hello] (initial ∅)
  = initial ∅.
Proof.
  apply (unset_handle_stays_unset
           [GetHealth; PostEmbed hello; PostEmbedDocument hello] (initial ∅)).
  reflexivity.
Defined.
